(** * SyntropyLog documentation site

    A shallow embedding of the executable parts of the documentation site:
    the two site configuration modules ([docusaurus.config.ts] and
    [docusaurus.config.js]), the presentational React components
    (the Examples page and the two versions of [HomepageFeatures]) and the
    content tree the static-site generator maps to routes.

    Strings are byte strings (UTF-8), arrays are lists, object literals are
    records, objects with varying keys are tagged unions, and module-level
    bindings live in an explicit store that the components read. *)

From Stdlib Require Import String Ascii List ZArith Bool Lia.
From Stdlib Require Import DecimalString DecimalZ.

#[global] Set Warnings "-register-all".
Import ListNotations.
Open Scope string_scope.

(** * JavaScript primitives used by the sources *)

Module JS.

(** [String.prototype.toLowerCase], on the ASCII range: the letters
    [A]–[Z] move to [a]–[z], every other byte is kept. *)
Definition lower_ascii (c : ascii) : ascii :=
  let n := nat_of_ascii c in
  if (65 <=? n)%nat && (n <=? 90)%nat then ascii_of_nat (n + 32) else c.

Fixpoint toLowerCase (s : string) : string :=
  match s with
  | EmptyString => EmptyString
  | String c rest => String (lower_ascii c) (toLowerCase rest)
  end.

Fixpoint drop (n : nat) (s : string) : string :=
  match n, s with
  | O, _ => s
  | S _, EmptyString => EmptyString
  | S m, String _ rest => drop m rest
  end.

(** [String.prototype.replace] with a string pattern: only the FIRST
    occurrence of [pat] is replaced (an empty pattern matches at the
    start). The replacements used by the sources hold no [$] pattern. *)
Fixpoint replace (pat rep s : string) : string :=
  if String.prefix pat s then rep ++ drop (String.length pat) s
  else match s with
       | EmptyString => EmptyString
       | String c rest => String c (replace pat rep rest)
       end.

(** [Array.prototype.map]: the callback receives the element and its
    index; a new array is built and the receiver is left as it is. *)
Fixpoint map_from {A B : Type} (i : nat) (f : A -> nat -> B) (l : list A)
  : list B :=
  match l with
  | [] => []
  | x :: rest => f x i :: map_from (S i) f rest
  end.

Definition array_map {A B : Type} (f : A -> nat -> B) (l : list A) : list B :=
  map_from 0 f l.

(** A template literal interpolating an integer number prints it in
    decimal, with a leading minus sign when negative. *)
Definition number_toString (z : Z) : string :=
  NilEmpty.string_of_int (Z.to_int z).

(** The numeric value of a string of decimal digits ([Number(s)] on such
    a string); [None] when [s] is not a decimal numeral. *)
Definition decimal_value (s : string) : option Z :=
  option_map Z.of_int (NilEmpty.int_of_string s).

Definition is_digit (c : ascii) : bool :=
  let n := nat_of_ascii c in (48 <=? n)%nat && (n <=? 57)%nat.

Fixpoint all_digits (s : string) : bool :=
  match s with
  | EmptyString => true
  | String c rest => is_digit c && all_digits rest
  end.

(** [clsx(...)]: the truthy class names joined by one space. *)
Definition clsx (names : list string) : string :=
  String.concat " " (filter (fun n => negb (String.eqb n "")) names).

End JS.

(** * A state monad for code that runs against module-level bindings *)

Section StateMonad.
Context {St : Type}.

Definition State (A : Type) : Type := St -> A * St.

Definition ret {A : Type} (a : A) : State A := fun s => (a, s).

Definition bind {A B : Type} (m : State A) (k : A -> State B) : State B :=
  fun s => let (a, s') := m s in k a s'.

Definition gets {A : Type} (proj : St -> A) : State A := fun s => (proj s, s).

(** [Array.prototype.map] with an effectful callback, left to right. *)
Fixpoint mapM_from {A B : Type} (i : nat) (f : A -> nat -> State B)
    (l : list A) : State (list B) :=
  match l with
  | [] => ret []
  | x :: rest =>
      bind (f x i) (fun y =>
      bind (mapM_from (S i) f rest) (fun ys => ret (y :: ys)))
  end.

Definition array_mapM {A B : Type} (f : A -> nat -> State B) (l : list A)
  : State (list B) := mapM_from 0 f l.

(** A computation that leaves the store as it found it. *)
Definition preserves {A : Type} (m : State A) : Prop :=
  forall s, snd (m s) = s.
End StateMonad.

Arguments State : clear implicits.

Notation "x <- m ;; k" := (bind m (fun x => k))
  (at level 61, m at next level, right associativity).

(** * React element trees *)

Inductive AttrValue : Type :=
| AStr (s : string)
| AObj (fields : list (string * string)).

(** [Elem] is a host element or a component imported from outside the
    repository ([Layout], [Heading], [Link], an SVG asset); [Comp] is an
    instance of a component defined in the repository, with the [key] it
    was given and the tree it rendered. *)
Inductive Node : Type :=
| Text (s : string)
| Elem (tag : string) (attrs : list (string * AttrValue)) (children : list Node)
| Fragment (children : list Node)
| Comp (name : string) (key : option nat) (output : Node).

Definition className (c : string) : string * AttrValue := ("className", AStr c).

(** The instances of component [name] in a tree, in document order, each
    with its key and its output. The search does not continue below an
    instance it has found. *)
Fixpoint instances (name : string) (n : Node) : list (option nat * Node) :=
  match n with
  | Text _ => []
  | Elem _ _ children => flat_map (instances name) children
  | Fragment children => flat_map (instances name) children
  | Comp name' key output =>
      if String.eqb name' name then [(key, output)] else instances name output
  end.

(** The value of attribute [a] at the root of a tree. *)
Definition attr (a : string) (n : Node) : option AttrValue :=
  match n with
  | Elem _ attrs _ =>
      option_map snd (find (fun kv => String.eqb (fst kv) a) attrs)
  | _ => None
  end.

(** The first element with tag [tag] in a tree, in document order. *)
Fixpoint first_elem (tag : string) (n : Node) : option Node :=
  let fix first_of (l : list Node) : option Node :=
    match l with
    | [] => None
    | c :: rest =>
        match first_elem tag c with
        | Some e => Some e
        | None => first_of rest
        end
    end in
  match n with
  | Text _ => None
  | Elem tag' _ children =>
      if String.eqb tag' tag then Some n else first_of children
  | Fragment children => first_of children
  | Comp _ _ output => first_elem tag output
  end.

(** * The Examples page (React, JavaScript version) *)

Module ExamplesPage.

Record Example : Type := {
  number : string;
  title : string;
  description : string
}.

Record Category : Type := {
  category_title : string;
  category_description : string;
  examples : list Example
}.

Definition ExampleCategories : list Category := [
  {| category_title := "Foundation Examples (00-09)";
     category_description := "Start here if you're new to SyntropyLog";
     examples := [
       {| number := "00"; title := "Setup & Initialization"; description := "Basic initialization patterns" |};
       {| number := "01"; title := "Hello World"; description := "Your first SyntropyLog application" |};
       {| number := "02"; title := "Basic Context"; description := "Understanding context management" |};
       {| number := "03"; title := "TypeScript Context"; description := "Type-safe context with TypeScript" |};
       {| number := "04"; title := "Logging Levels & Transports"; description := "Different log formats and levels" |};
       {| number := "05"; title := "Configuration Patterns"; description := "Advanced configuration strategies" |};
       {| number := "06"; title := "Error Handling"; description := "Best practices for error logging" |};
       {| number := "07"; title := "Performance Monitoring"; description := "Monitoring application performance" |};
       {| number := "08"; title := "Testing Strategies"; description := "How to test with SyntropyLog" |};
       {| number := "09"; title := "Best Practices"; description := "Production-ready patterns" |}
     ] |};
  {| category_title := "HTTP & Redis Examples (10-13)";
     category_description := "Learn HTTP instrumentation and Redis integration";
     examples := [
       {| number := "10"; title := "Basic HTTP Correlation"; description := "HTTP client instrumentation" |};
       {| number := "11"; title := "Custom HTTP Adapters"; description := "Creating custom HTTP adapters" |};
       {| number := "12"; title := "HTTP + Redis + Axios"; description := "Full-stack with Express" |};
       {| number := "13"; title := "HTTP + Redis + Fastify"; description := "Full-stack with Fastify" |}
     ] |};
  {| category_title := "Message Broker Examples (20-24)";
     category_description := "Advanced patterns with message brokers";
     examples := [
       {| number := "20"; title := "Basic Kafka Correlation"; description := "Kafka integration" |};
       {| number := "21"; title := "Basic RabbitMQ Broker"; description := "RabbitMQ integration" |};
       {| number := "22"; title := "Basic NATS Broker"; description := "NATS integration" |};
       {| number := "23"; title := "Kafka Full Stack"; description := "Complete Kafka application" |};
       {| number := "24"; title := "NATS Full Stack"; description := "Complete NATS microservices" |}
     ] |}
].

(** What [useDocusaurusContext()] hands out; the page destructures
    [siteConfig] and does not use it. *)
Record DocusaurusContext : Type := {
  siteConfig : list (string * string)
}.

(** The bindings the module's functions can reach: the module-level
    array and the generator's context. *)
Record Store : Type := {
  st_ExampleCategories : list Category;
  st_context : DocusaurusContext
}.

Definition module_init (ctx : DocusaurusContext) : Store :=
  {| st_ExampleCategories := ExampleCategories; st_context := ctx |}.

Definition useDocusaurusContext : State Store DocusaurusContext :=
  gets st_context.

Definition ExamplesHeader : State Store Node :=
  _ <- useDocusaurusContext ;;
  ret (Elem "header" [className (JS.clsx ["hero hero--primary"])] [
         Elem "div" [className "container"] [
           Elem "Heading" [("as", AStr "h1"); className "hero__title"]
             [Text "Examples"];
           Elem "p" [className "hero__subtitle"]
             [Text "Learn SyntropyLog progressively with real-world examples"]
         ]
       ]).

(** The [to] property of the card's link. *)
Definition link_to (example : Example) : string :=
  "/docs/examples/" ++ JS.replace " " "-" (JS.toLowerCase (number example)).

Definition ExampleCard (example : Example) : State Store Node :=
  ret (Elem "div" [className "col col--4 margin-bottom--lg"] [
         Elem "div" [className "card"] [
           Elem "div" [className "card__header"] [
             Elem "h3" [] [Text (number example); Text " - "; Text (title example)]
           ];
           Elem "div" [className "card__body"] [
             Elem "p" [] [Text (description example)]
           ];
           Elem "div" [className "card__footer"] [
             Elem "Link" [className "button button--primary button--block";
                          ("to", AStr (link_to example))]
               [Text "View Example"]
           ]
         ]
       ]).

Definition ExampleCategory (category : Category) : State Store Node :=
  cards <- array_mapM
             (fun example idx =>
                out <- ExampleCard example ;;
                ret (Comp "ExampleCard" (Some idx) out))
             (examples category) ;;
  ret (Elem "div" [className "margin-bottom--xl"] [
         Elem "Heading" [("as", AStr "h2")] [Text (category_title category)];
         Elem "p" [className "margin-bottom--lg"]
           [Text (category_description category)];
         Elem "div" [className "row"] cards
       ]).

Definition RunningExamples : Node :=
  Elem "div" [className "margin-top--xl padding--lg";
              ("style", AObj [("backgroundColor", "var(--ifm-color-emphasis-100)");
                              ("borderRadius", "8px")])] [
    Elem "Heading" [("as", AStr "h2")] [Text "Running Examples"];
    Elem "p" [] [Text "Each example includes:"];
    Elem "ul" [] [
      Elem "li" [] [Text "✅ "; Elem "strong" [] [Text "Complete source code"];
                    Text " - Ready to run"];
      Elem "li" [] [Text "✅ "; Elem "strong" [] [Text "Docker setup"];
                    Text " - For services like Redis, Kafka, etc."];
      Elem "li" [] [Text "✅ "; Elem "strong" [] [Text "Step-by-step instructions"];
                    Text " - Clear explanations"];
      Elem "li" [] [Text "✅ "; Elem "strong" [] [Text "Expected output"];
                    Text " - Know what to expect"]
    ];
    Elem "Heading" [("as", AStr "h3")] [Text "Quick Start"];
    Elem "div" [className "margin-bottom--md"] [
      Elem "code" [] [
        Text "# Navigate to any example"; Elem "br" [] [];
        Text "cd sub-modules/examples/01-hello-world"; Elem "br" [] []; Elem "br" [] [];
        Text "# Install dependencies"; Elem "br" [] [];
        Text "npm install"; Elem "br" [] []; Elem "br" [] [];
        Text "# Run the example"; Elem "br" [] [];
        Text "npm start"
      ]
    ]
  ].

Definition Examples : State Store Node :=
  _ <- useDocusaurusContext ;;
  header <- ExamplesHeader ;;
  categories <- gets st_ExampleCategories ;;
  sections <- array_mapM
                (fun category idx =>
                   out <- ExampleCategory category ;;
                   ret (Comp "ExampleCategory" (Some idx) out))
                categories ;;
  ret (Elem "Layout"
         [("title", AStr "Examples - SyntropyLog");
          ("description",
           AStr "Learn SyntropyLog progressively with real-world examples")] [
         Comp "ExamplesHeader" None header;
         Elem "main" [] [
           Elem "div" [className "container margin-top--xl"]
             (sections ++ [RunningExamples])
         ]
       ]).

(** All the examples of the page, in the order of the array. *)
Definition all_examples : list Example :=
  flat_map examples ExampleCategories.

(** The target of the card's link as it appears in the rendered tree. *)
Definition rendered_link (card : Node) : option AttrValue :=
  match first_elem "Link" card with
  | Some link => attr "to" link
  | None => None
  end.

End ExamplesPage.

(** * The HomepageFeatures component, TypeScript version *)

Module HomepageFeaturesTsx.

(** [Svg] is the component an SVG asset module exports, named here by the
    asset's path; [description] is a [ReactNode]. *)
Record FeatureItem : Type := {
  title : string;
  Svg : string;
  description : Node
}.

Definition FeatureList : list FeatureItem := [
  {| title := "Zero Boilerplate";
     Svg := "@site/static/img/undraw_docusaurus_mountain.svg";
     description := Fragment [Text "Get started in 30 seconds with automatic context propagation and structured logging. Focus on your business logic, not observability setup."] |};
  {| title := "Automatic Correlation";
     Svg := "@site/static/img/undraw_docusaurus_tree.svg";
     description := Fragment [Text "Distributed tracing with automatic correlation IDs across services, HTTP calls, and message brokers. Zero configuration required."] |};
  {| title := "Framework Agnostic";
     Svg := "@site/static/img/undraw_docusaurus_react.svg";
     description := Fragment [Text "Works seamlessly with Express, Fastify, Koa, NestJS, and any Node.js application. No vendor lock-in, no framework dependencies."] |}
].

Record Store : Type := { st_FeatureList : list FeatureItem }.

Definition module_init : Store := {| st_FeatureList := FeatureList |}.

(** The class names exported by [styles.module.css], a file the
    generator's CSS-module loader turns into an object. *)
Record Styles : Type := { features : string; featureSvg : string }.

Section Components.
Variable styles : Styles.

Definition Feature (props : FeatureItem) : State Store Node :=
  ret (Elem "div" [className (JS.clsx ["col col--4"])] [
         Elem "div" [className "text--center"] [
           Elem (Svg props) [className (featureSvg styles); ("role", AStr "img")] []
         ];
         Elem "div" [className "text--center padding-horiz--md"] [
           Elem "Heading" [("as", AStr "h3")] [Text (title props)];
           Elem "p" [] [description props]
         ]
       ]).

Definition HomepageFeatures : State Store Node :=
  list <- gets st_FeatureList ;;
  cards <- array_mapM
             (fun props idx =>
                out <- Feature props ;;
                ret (Comp "Feature" (Some idx) out))
             list ;;
  ret (Elem "section" [className (features styles)] [
         Elem "div" [className "container"] [
           Elem "div" [className "row"] cards
         ]
       ]).
End Components.

End HomepageFeaturesTsx.

(** * The HomepageFeatures component, JavaScript version *)

Module HomepageFeaturesJs.

Record FeatureItem : Type := {
  title : string;
  Svg : string;
  description : Node
}.

Definition FeatureList : list FeatureItem := [
  {| title := "🚀 Production Ready";
     Svg := "@site/static/img/undraw_docusaurus_mountain.svg";
     description := Fragment [Text "94.1% test coverage, comprehensive examples, and battle-tested in production environments. Built for high-performance teams who need reliability."] |};
  {| title := "🔄 Framework Agnostic";
     Svg := "@site/static/img/undraw_docusaurus_tree.svg";
     description := Fragment [Text "Works seamlessly across Express, Fastify, Koa, NestJS, and any Node.js application type. No vendor lock-in, no framework dependencies."] |};
  {| title := "🔗 Automatic Correlation";
     Svg := "@site/static/img/undraw_docusaurus_react.svg";
     description := Fragment [Text "Distributed tracing with correlation IDs across services, HTTP calls, and message brokers. Zero configuration required."] |};
  {| title := "🎯 Zero Boilerplate";
     Svg := "@site/static/img/undraw_docusaurus_mountain.svg";
     description := Fragment [Text "Get started in 30 seconds with automatic context propagation and structured logging. Focus on your business logic, not observability setup."] |};
  {| title := "🛡️ Security First";
     Svg := "@site/static/img/undraw_docusaurus_tree.svg";
     description := Fragment [Text "Built-in data masking, secure configurations, and compliance-ready logging. Protect sensitive data automatically."] |};
  {| title := "⚡ High Performance";
     Svg := "@site/static/img/undraw_docusaurus_react.svg";
     description := Fragment [Text "Optimized for production with minimal overhead and intelligent log scoping. 45,000+ ops/sec with less than 1ms latency."] |}
].

Record Store : Type := { st_FeatureList : list FeatureItem }.

Definition module_init : Store := {| st_FeatureList := FeatureList |}.

Definition Feature (props : FeatureItem) : State Store Node :=
  ret (Elem "div" [className (JS.clsx ["col col--4"])] [
         Elem "div" [className "text--center"] [
           Elem (Svg props) [className (JS.clsx ["featureSvg"]); ("role", AStr "img")] []
         ];
         Elem "div" [className "text--center padding-horiz--md"] [
           Elem "Heading" [("as", AStr "h3")] [Text (title props)];
           Elem "p" [] [description props]
         ]
       ]).

Definition HomepageFeatures : State Store Node :=
  list <- gets st_FeatureList ;;
  cards <- array_mapM
             (fun props idx =>
                out <- Feature props ;;
                ret (Comp "Feature" (Some idx) out))
             list ;;
  ret (Elem "section" [className (JS.clsx ["margin-top--xl"])] [
         Elem "div" [className "container"] [
           Elem "div" [className "row"] cards
         ]
       ]).

End HomepageFeaturesJs.

(** * Site configuration *)

Module Site.

(** What a configuration module reads from its environment when it is
    evaluated: [new Date().getFullYear()]. *)
Record Runtime : Type := { fullYear : Z }.

Record CustomFields : Type := { version : string; releaseDate : string }.

Record Future : Type := { v4 : bool }.

Record I18n : Type := { defaultLocale : string; locales : list string }.

(** A path given as a literal, or handed to [require.resolve]. *)
Inductive ModulePath : Type :=
| Literal (path : string)
| RequireResolve (request : string).

Record DocsOptions : Type := { sidebarPath : ModulePath; editUrl : string }.

Record BlogOptions : Type := { showReadingTime : bool; blog_editUrl : string }.

(** [blog: false] or [blog: { ... }]. *)
Inductive BlogSetting : Type :=
| BlogFalse
| BlogObject (options : BlogOptions).

Record ThemeOptions : Type := { customCss : ModulePath }.

Record PresetOptions : Type := {
  docs : DocsOptions;
  blog : BlogSetting;
  theme : ThemeOptions
}.

Record Logo : Type := { alt : string; src : string; width : Z; height : Z }.

Inductive NavbarItem : Type :=
| NavDocSidebar (sidebarId position label : string)
| NavTo (to label position : string)
| NavHref (href label position : string)
| NavHtml (position value : string).

Record Navbar : Type := {
  navbar_title : string;
  logo : Logo;
  items : list NavbarItem
}.

Inductive FooterItem : Type :=
| FooterTo (label to : string)
| FooterHref (label href : string).

Record FooterColumn : Type := {
  column_title : string;
  column_items : list FooterItem
}.

Record Footer : Type := {
  style : string;
  links : list FooterColumn;
  copyright : string
}.

(** Themes are values imported from [prism-react-renderer], named here
    by the import that yields them. *)
Record Prism : Type := {
  prism_theme : string;
  darkTheme : string;
  additionalLanguages : option (list string)
}.

Record ColorMode : Type := {
  defaultMode : string;
  disableSwitch : bool;
  respectPrefersColorScheme : bool
}.

Record ThemeConfig : Type := {
  image : string;
  navbar : Navbar;
  footer : Footer;
  prism : Prism;
  colorMode : option ColorMode
}.

Record Config : Type := {
  title : string;
  tagline : string;
  favicon : string;
  customFields : option CustomFields;
  future : option Future;
  url : string;
  baseUrl : string;
  organizationName : string;
  projectName : string;
  onBrokenLinks : string;
  onBrokenMarkdownLinks : string;
  i18n : I18n;
  presets : list (string * PresetOptions);
  themeConfig : ThemeConfig
}.

Definition dquote : string := String (ascii_of_nat 34) EmptyString.

(** The [to] targets of the navbar items and of the footer items. *)
Definition navbar_targets (c : Config) : list string :=
  flat_map (fun item => match item with NavTo to _ _ => [to] | _ => [] end)
           (items (navbar (themeConfig c))).

Definition footer_targets (c : Config) : list string :=
  flat_map (fun column =>
              flat_map (fun item =>
                          match item with FooterTo _ to => [to] | _ => [] end)
                       (column_items column))
           (links (footer (themeConfig c))).

Definition internal_targets (c : Config) : list string :=
  navbar_targets c ++ footer_targets c.

(** The [value] of the navbar's [html] item. *)
Definition html_badge (c : Config) : option string :=
  match find (fun item => match item with NavHtml _ _ => true | _ => false end)
             (items (navbar (themeConfig c))) with
  | Some (NavHtml _ value) => Some value
  | _ => None
  end.

(** The blog setting of the [classic] preset. *)
Definition classic_blog (c : Config) : option BlogSetting :=
  option_map (fun p => blog (snd p))
             (find (fun p => String.eqb (fst p) "classic") (presets c)).

(** The fields the generator reads as the build-time surface of a site. *)
Record Surface : Type := {
  s_title : string;
  s_url : string;
  s_baseUrl : string;
  s_organizationName : string;
  s_projectName : string;
  s_locales : list string;
  s_onBrokenLinks : string;
  s_onBrokenMarkdownLinks : string;
  s_blog : option BlogSetting
}.

Definition surface (c : Config) : Surface :=
  {| s_title := title c;
     s_url := url c;
     s_baseUrl := baseUrl c;
     s_organizationName := organizationName c;
     s_projectName := projectName c;
     s_locales := locales (i18n c);
     s_onBrokenLinks := onBrokenLinks c;
     s_onBrokenMarkdownLinks := onBrokenMarkdownLinks c;
     s_blog := classic_blog c |}.

(** A configuration with another footer copyright. *)
Definition with_copyright (text : string) (c : Config) : Config :=
  let tc := themeConfig c in
  let f := footer tc in
  {| title := title c; tagline := tagline c; favicon := favicon c;
     customFields := customFields c; future := future c; url := url c;
     baseUrl := baseUrl c; organizationName := organizationName c;
     projectName := projectName c; onBrokenLinks := onBrokenLinks c;
     onBrokenMarkdownLinks := onBrokenMarkdownLinks c; i18n := i18n c;
     presets := presets c;
     themeConfig :=
       {| image := image tc; navbar := navbar tc;
          footer := {| style := style f; links := links f; copyright := text |};
          prism := prism tc; colorMode := colorMode tc |} |}.

End Site.

(** ** [docusaurus.config.ts] *)

Module ConfigTs.
Import Site.

Definition LATEST_VERSION : string := "0.7.0".

Definition config (rt : Runtime) : Config :=
  {| title := "SyntropyLog";
     tagline := "From Chaos to Clarity - The Observability Framework for High-Performance Teams";
     favicon := "/favicon.ico";
     customFields := Some {| version := LATEST_VERSION; releaseDate := "2025-07-25" |};
     future := Some {| v4 := true |};
     url := "https://syntropysoft.com";
     baseUrl := "/syntropylog-doc/";
     organizationName := "Syntropysoft";
     projectName := "syntropylog-doc";
     onBrokenLinks := "throw";
     onBrokenMarkdownLinks := "warn";
     i18n := {| defaultLocale := "en"; locales := ["en"] |};
     presets := [
       ("classic",
        {| docs := {| sidebarPath := Literal "./sidebars.ts";
                      editUrl := "https://github.com/Syntropysoft/SyntropyLog/tree/main/docs-docusaurus/" |};
           blog := BlogFalse;
           theme := {| customCss := Literal "./src/css/custom.css" |} |})
     ];
     themeConfig :=
       {| image := "img/syntropylog-social-card.jpg";
          navbar :=
            {| navbar_title := "SyntropyLog";
               logo := {| alt := "SyntropyLog Logo"; src := "img/beaconLog-2-new.png";
                          width := 40; height := 40 |};
               items := [
                 NavDocSidebar "tutorialSidebar" "left" "Documentation";
                 NavTo "/examples" "Examples" "left";
                 NavHref "https://github.com/Syntropysoft/SyntropyLog" "GitHub" "right";
                 NavHref "https://www.npmjs.com/package/syntropylog" "NPM" "right";
                 NavHtml "right"
                   ("<span class=" ++ dquote ++ "version-badge" ++ dquote ++ ">v"
                      ++ LATEST_VERSION ++ "</span>")
               ] |};
          footer :=
            {| style := "dark";
               links := [
                 {| column_title := "Documentation";
                    column_items := [
                      FooterTo "Getting Started" "/docs/getting-started";
                      FooterTo "API Reference" "/docs/api-reference/";
                      FooterTo "Examples" "/examples"
                    ] |};
                 {| column_title := "Community";
                    column_items := [
                      FooterHref "GitHub" "https://github.com/Syntropysoft/SyntropyLog";
                      FooterHref "NPM Package" "https://www.npmjs.com/package/syntropylog";
                      FooterHref "Issues" "https://github.com/Syntropysoft/SyntropyLog/issues"
                    ] |};
                 {| column_title := "Resources";
                    column_items := [
                      FooterHref "Examples Repository" "https://github.com/Syntropysoft/syntropylog-examples-";
                      FooterHref "Adapters Package" "https://www.npmjs.com/package/@syntropylog/adapters"
                    ] |}
               ];
               copyright := "Copyright © " ++ JS.number_toString (fullYear rt)
                              ++ " Syntropysoft. Built with Docusaurus." |};
          prism := {| prism_theme := "prismThemes.github";
                      darkTheme := "prismThemes.dracula";
                      additionalLanguages := None |};
          colorMode := None |} |}.

End ConfigTs.

(** ** [docusaurus.config.js] *)

Module ConfigJs.
Import Site.

Definition lightCodeTheme : string := "prism-react-renderer/themes/github".
Definition darkCodeTheme : string := "prism-react-renderer/themes/dracula".

Definition config (rt : Runtime) : Config :=
  {| title := "SyntropyLog";
     tagline := "The Observability Framework for High-Performance Teams";
     favicon := "./assets/favicon.ico";
     customFields := None;
     future := None;
     url := "https://syntropylog.com";
     baseUrl := "/syntropylog-doc/";
     organizationName := "Syntropysoft";
     projectName := "SyntropyLog";
     onBrokenLinks := "throw";
     onBrokenMarkdownLinks := "warn";
     i18n := {| defaultLocale := "en"; locales := ["en"] |};
     presets := [
       ("classic",
        {| docs := {| sidebarPath := RequireResolve "./sidebars.js";
                      editUrl := "https://github.com/Syntropysoft/SyntropyLog/tree/main/docs-docusaurus/" |};
           blog := BlogObject
                     {| showReadingTime := true;
                        blog_editUrl := "https://github.com/Syntropysoft/SyntropyLog/tree/main/docs-docusaurus/" |};
           theme := {| customCss := RequireResolve "./src/css/custom.css" |} |})
     ];
     themeConfig :=
       {| image := "img/syntropylog-social-card.jpg";
          navbar :=
            {| navbar_title := "SyntropyLog";
               logo := {| alt := "SyntropyLog Logo"; src := "img/beaconLog-2-new.png";
                          width := 40; height := 40 |};
               items := [
                 NavDocSidebar "tutorialSidebar" "left" "Documentation";
                 NavTo "/examples" "Examples" "left";
                 NavTo "/api" "API" "left";
                 NavTo "/quality" "Quality" "left";
                 NavHref "https://github.com/Syntropysoft/SyntropyLog" "GitHub" "right"
               ] |};
          footer :=
            {| style := "dark";
               links := [
                 {| column_title := "Docs";
                    column_items := [
                      FooterTo "Getting Started" "/docs/getting-started";
                      FooterTo "Examples" "/examples";
                      FooterTo "API Reference" "/api"
                    ] |};
                 {| column_title := "Community";
                    column_items := [
                      FooterHref "GitHub" "https://github.com/Syntropysoft/SyntropyLog";
                      FooterHref "Issues" "https://github.com/Syntropysoft/SyntropyLog/issues";
                      FooterHref "Discussions" "https://github.com/Syntropysoft/SyntropyLog/discussions"
                    ] |};
                 {| column_title := "More";
                    column_items := [
                      FooterTo "Quality & CI/CD" "/quality";
                      FooterHref "NPM Package" "https://www.npmjs.com/package/syntropylog";
                      FooterHref "Adapters Package" "https://www.npmjs.com/package/@syntropylog/adapters"
                    ] |}
               ];
               copyright := "Copyright © " ++ JS.number_toString (fullYear rt)
                              ++ " SyntropySoft. Built with Docusaurus." |};
          prism := {| prism_theme := lightCodeTheme;
                      darkTheme := darkCodeTheme;
                      additionalLanguages := Some ["typescript"; "bash"; "json"] |};
          colorMode := Some {| defaultMode := "light";
                               disableSwitch := false;
                               respectPrefersColorScheme := true |} |} |}.

End ConfigJs.

(** The configuration modules present in the repository. *)
Definition site_configs (rt : Site.Runtime) : list Site.Config :=
  [ConfigTs.config rt; ConfigJs.config rt].

(** * The content tree and the routes the generator gives it

    The generator is an external tool; what is modelled of it is its
    routing convention for the classic preset as configured above: the docs
    plugin serves the Markdown files under [docs/] below [/docs], the pages
    plugin serves the modules under [src/pages/] below [/]. Both routes and
    link targets are relative to [baseUrl]. *)

Module Content.

(** A document of the repository: where it lives (path segments from the
    site root) and the [id] of its front matter, if it has one. No
    document of the repository sets a [slug]. *)
Record Document : Type := {
  path : list string;
  front_id : option string
}.

Fixpoint split_aux (sep : ascii) (s : string) : string * list string :=
  match s with
  | EmptyString => (EmptyString, [])
  | String c rest =>
      let (seg, more) := split_aux sep rest in
      if Ascii.eqb c sep then (EmptyString, seg :: more)
      else (String c seg, more)
  end.

Definition split (sep : ascii) (s : string) : list string :=
  let (seg, more) := split_aux sep s in seg :: more.

Definition nonempty (s : string) : bool := negb (String.eqb s "").

(** A route or link target as its segments; a trailing slash does not
    make a different route. *)
Definition split_path (target : string) : list string :=
  filter nonempty (split "/" target).

(** [name] without its extension, and the extension. *)
Definition split_extension (name : string) : option (string * string) :=
  match rev (split "." name) with
  | ext :: (_ :: _) as base_rev => Some (String.concat "." (rev base_rev), ext)
  | _ => None
  end.

Fixpoint skip (p : ascii -> bool) (s : string) : string :=
  match s with
  | EmptyString => EmptyString
  | String c rest => if p c then skip p rest else s
  end.

Definition is_space (c : ascii) : bool := Ascii.eqb c " ".

Definition is_separator (c : ascii) : bool :=
  Ascii.eqb c "-" || Ascii.eqb c "_" || Ascii.eqb c ".".

(** The docs plugin's number prefixes: digits, then separators
    ([-], [_], [.]), then the name that is kept. *)
Definition strip_number_prefix (name : string) : string :=
  let after_digits := skip JS.is_digit name in
  if (String.length after_digits =? String.length name)%nat then name
  else
    let after_spaces := skip is_space after_digits in
    let after_seps := skip is_separator after_spaces in
    if (String.length after_seps =? String.length after_spaces)%nat then name
    else
      match skip is_space after_seps with
      | EmptyString => name
      | String c _ as suffix => if is_separator c then name else suffix
      end.

Definition mem (x : string) (l : list string) : bool :=
  existsb (String.eqb x) l.

(** The directories of a path and its file name. *)
Definition dir_and_file (p : list string) : option (list string * string) :=
  match rev p with
  | [] => None
  | file :: dirs_rev => Some (rev dirs_rev, file)
  end.

(** A Markdown document [docs/<dirs>/<file>] is served at
    [/docs/<dirs>/<id>], where directories and file name lose their
    number prefixes and the front matter's [id] replaces the file name;
    [index], [README] and a file named as its directory are served at the
    directory itself. *)
Definition doc_route (below_docs : list string) (id : option string)
  : option (list string) :=
  match dir_and_file below_docs with
  | None => None
  | Some (dirs, file) =>
      match split_extension file with
      | None => None
      | Some (base, ext) =>
          if mem ext ["md"; "mdx"] then
            let dirs' := map strip_number_prefix dirs in
            let index_names :=
              (["index"; "readme"] ++ map JS.toLowerCase (firstn 1 (rev dirs)))%list in
            if mem (JS.toLowerCase base) index_names then Some ("docs" :: dirs')
            else
              let last :=
                match id with
                | Some i => i
                | None => strip_number_prefix base
                end in
              Some ("docs" :: (dirs' ++ [last])%list)
          else None
      end
  end.

(** A module or Markdown file [src/pages/<dirs>/<file>] is served at
    [/<dirs>/<file>] without its extension, [index] at the directory. *)
Definition page_route (below_pages : list string) : option (list string) :=
  match dir_and_file below_pages with
  | None => None
  | Some (dirs, file) =>
      match split_extension file with
      | None => None
      | Some (base, ext) =>
          if mem ext ["js"; "jsx"; "ts"; "tsx"; "md"; "mdx"] then
            if String.eqb base "index" then Some dirs
            else Some (dirs ++ [base])%list
          else None
      end
  end.

Definition route (d : Document) : option (list string) :=
  match path d with
  | "docs" :: below => doc_route below (front_id d)
  | "src" :: "pages" :: below => page_route below
  | _ => None
  end.

Definition routes (tree : list Document) : list (list string) :=
  flat_map (fun d => match route d with Some r => [r] | None => [] end) tree.

Definition route_eq_dec : forall a b : list string, {a = b} + {a <> b} :=
  list_eq_dec string_dec.

(** Does the tree hold a page for the link target? *)
Definition resolves (tree : list Document) (target : string) : bool :=
  if in_dec route_eq_dec (split_path target) (routes tree) then true else false.

Definition doc (p : list string) (id : option string) : Document :=
  {| path := p; front_id := id |}.

(** The documents whose place in the repository is known. *)
Definition named_documents : list Document := [
  doc ["docusaurus.config.js"] None;
  doc ["docusaurus.config.ts"] None;
  doc ["src"; "components"; "HomepageFeatures"; "index.tsx"] None;
  doc ["src"; "css"; "custom.css"] None;
  doc ["src"; "pages"; "examples.tsx"] None;
  doc ["docs"; "examples.md"] None;
  doc ["docs"; "getting-started.md"] (Some "getting-started");
  doc ["docs"; "intro.md"] None;
  doc ["docs"; "core-concepts"; "context.md"] None;
  doc ["docs"; "core-concepts"; "logger.md"] None;
  doc ["docs"; "configuration"; "index.md"] (Some "configuration");
  doc ["docs"; "examples"; "28-testing-patterns-vitest.md"] (Some "testing-patterns-vitest");
  doc ["docs"; "examples"; "30-testing-redis-context.md"] (Some "testing-redis-context");
  doc ["docs"; "examples"; "32-testing-transports-concepts.md"] (Some "testing-transports-concepts");
  doc ["docs"; "examples"; "index.md"] (Some "examples");
  doc ["docs"; "production"; "graceful-shutdown.md"] None;
  doc ["docs"; "production"; "index.md"] (Some "production")
].

(** The documents of the repository whose file names are not known,
    with the front matter they carry. [place] says where each one lives:
      0  the Examples page with the [ExampleCategories] array (React);
      1  the JavaScript [HomepageFeatures] component (React);
      2  Logger;  3, 4  HTTP Instrumentation (two versions);
      5  Configuration Patterns;  6  Graceful Shutdown;
      7  Examples index;  8  Advanced Testing Scenarios;
      9  Testing Serializers;  10  Testing Patterns with Jest;
      11 Testing Overview;  12  Boilerplate;  13  API Reference;
      14 Context Management. *)
Definition unnamed_front_ids : list (option string) := [
  None; None;
  None; None; None;
  None; None;
  Some "examples"; Some "advanced-testing";
  Some "testing-serializers"; Some "testing-patterns-jest";
  Some "testing-overview"; None; Some "api-reference";
  None
].

Definition unnamed_documents (place : nat -> list string) : list Document :=
  JS.array_map (fun id i => doc (place i) id) unnamed_front_ids.

Definition content_tree (place : nat -> list string) : list Document :=
  (named_documents ++ unnamed_documents place)%list.

(** A placement of the unnamed documents that follows their contents:
    further versions of named documents sit at the named document's path,
    the others where the links of the named documents point. *)
Definition plausible_place (i : nat) : list string :=
  nth i [
    ["src"; "pages"; "examples.js"];
    ["src"; "components"; "HomepageFeatures"; "index.js"];
    ["docs"; "core-concepts"; "logger.md"];
    ["docs"; "core-concepts"; "http-instrumentation.md"];
    ["docs"; "core-concepts"; "http-instrumentation.md"];
    ["docs"; "configuration"; "patterns.md"];
    ["docs"; "production"; "graceful-shutdown.md"];
    ["docs"; "examples"; "index.md"];
    ["docs"; "examples"; "31-advanced-testing.md"];
    ["docs"; "examples"; "31-testing-serializers.md"];
    ["docs"; "examples"; "29-testing-patterns-jest.md"];
    ["docs"; "examples"; "testing-overview.md"];
    ["docs"; "api-reference"; "boilerplate.md"];
    ["docs"; "api-reference"; "index.md"];
    ["docs"; "core-concepts"; "context.md"]
  ] ["docs"; "unnamed.md"].

End Content.

(** * Notions used to state the properties *)

(** The numbers of a category read as decimal numerals. *)
Definition category_numbers (c : ExamplesPage.Category) : list (option Z) :=
  map (fun example => JS.decimal_value (ExamplesPage.number example))
      (ExamplesPage.examples c).

Inductive increasing : list Z -> Prop :=
| increasing_nil : increasing []
| increasing_one z : increasing [z]
| increasing_cons y z rest :
    (y < z)%Z -> increasing (z :: rest) -> increasing (y :: z :: rest).

(** The routes the example cards link to. *)
Definition example_links : list (list string) :=
  map (fun example => Content.split_path (ExamplesPage.link_to example))
      ExamplesPage.all_examples.

(** An ASCII capital letter, the bytes [toLowerCase] moves. *)
Definition is_upper (c : ascii) : bool :=
  let n := nat_of_ascii c in (65 <=? n)%nat && (n <=? 90)%nat.

Fixpoint has_upper (s : string) : bool :=
  match s with
  | EmptyString => false
  | String c rest => is_upper c || has_upper rest
  end.

(** A string of ASCII characters only: on these the byte-wise
    [JS.toLowerCase] is JavaScript's. *)
Fixpoint all_ascii (s : string) : bool :=
  match s with
  | EmptyString => true
  | String c rest => (nat_of_ascii c <? 128)%nat && all_ascii rest
  end.

Fixpoint count_spaces (s : string) : nat :=
  match s with
  | EmptyString => 0
  | String c rest => (if Ascii.eqb c " " then 1 else 0) + count_spaces rest
  end.

(** All the elements with tag [tag] in a tree, in document order, also
    those inside the output of component instances. *)
Fixpoint elements (tag : string) (n : Node) : list Node :=
  match n with
  | Text _ => []
  | Elem tag' _ children =>
      ((if String.eqb tag' tag then [n] else []) ++ flat_map (elements tag) children)%list
  | Fragment children => flat_map (elements tag) children
  | Comp _ _ output => elements tag output
  end.

(** A feature of the JavaScript component read as one of the TypeScript
    component: the same three properties. *)
Definition feature_as_tsx (props : HomepageFeaturesJs.FeatureItem)
  : HomepageFeaturesTsx.FeatureItem :=
  {| HomepageFeaturesTsx.title := HomepageFeaturesJs.title props;
     HomepageFeaturesTsx.Svg := HomepageFeaturesJs.Svg props;
     HomepageFeaturesTsx.description := HomepageFeaturesJs.description props |}.

(** * Rendering reads the store and nothing else *)

Section Frame.
Context {St : Type}.

Lemma preserves_ret {A : Type} (a : A) : preserves (St := St) (ret a).
Proof. intros s. reflexivity. Qed.

Lemma preserves_gets {A : Type} (proj : St -> A) : preserves (gets proj).
Proof. intros s. reflexivity. Qed.

Lemma preserves_bind {A B : Type} (m : State St A) (k : A -> State St B) :
  preserves m -> (forall a, preserves (k a)) -> preserves (bind m k).
Proof.
  intros Hm Hk s. unfold bind.
  specialize (Hm s). destruct (m s) as [a s']. simpl in Hm. subst s'.
  apply Hk.
Qed.

Lemma preserves_mapM_from {A B : Type} (f : A -> nat -> State St B) :
  (forall x j, preserves (f x j)) ->
  forall l i, preserves (mapM_from i f l).
Proof.
  intros Hf l. induction l as [|x rest IH]; intros i; simpl.
  - apply preserves_ret.
  - apply preserves_bind; [apply Hf|]. intros y.
    apply preserves_bind; [apply IH|]. intros ys. apply preserves_ret.
Qed.

Lemma preserves_array_mapM {A B : Type} (f : A -> nat -> State St B) l :
  (forall x j, preserves (f x j)) -> preserves (array_mapM f l).
Proof. intros Hf. apply preserves_mapM_from. exact Hf. Qed.

Lemma fst_bind {A B : Type} (m : State St A) (k : A -> State St B) s :
  preserves m -> fst (bind m k s) = fst (k (fst (m s)) s).
Proof.
  intros Hm. unfold bind. specialize (Hm s).
  destruct (m s) as [a s']. simpl in *. subst s'. reflexivity.
Qed.

(** On callbacks that only read, the effectful [map] is the plain one. *)
Lemma fst_mapM_from {A B : Type} (f : A -> nat -> State St B) s :
  (forall x j, preserves (f x j)) ->
  forall l i,
    fst (mapM_from i f l s) = JS.map_from i (fun x j => fst (f x j s)) l.
Proof.
  intros Hf l. induction l as [|x rest IH]; intros i; simpl.
  - reflexivity.
  - rewrite fst_bind by apply Hf.
    rewrite fst_bind by (apply preserves_mapM_from; exact Hf).
    simpl. rewrite IH. reflexivity.
Qed.
End Frame.

Create HintDb frame.
#[export] Hint Resolve preserves_ret preserves_gets preserves_array_mapM : frame.
#[export] Hint Extern 2 (preserves (bind _ _)) =>
  apply preserves_bind; [| intro] : frame.

Lemma map_from_ext {A B : Type} (f g : A -> nat -> B) l :
  (forall x j, f x j = g x j) ->
  forall i, JS.map_from i f l = JS.map_from i g l.
Proof.
  intros Hfg. induction l as [|x rest IH]; intros i; simpl.
  - reflexivity.
  - rewrite Hfg, IH. reflexivity.
Qed.

(** A row of keyed instances of one component is found back as it was
    built, whatever the instances rendered. *)
Lemma instances_of_comps {A : Type} (name : string) (g : A -> nat -> Node) l :
  forall i,
    flat_map (instances name)
             (JS.map_from i (fun x j => Comp name (Some j) (g x j)) l)
    = JS.map_from i (fun x j => (Some j, g x j)) l.
Proof.
  induction l as [|x rest IH]; intros i; simpl.
  - reflexivity.
  - rewrite String.eqb_refl. simpl. rewrite IH. reflexivity.
Qed.

Module ExamplesFacts.
Import ExamplesPage.

Lemma ExamplesHeader_frame : preserves ExamplesHeader.
Proof. unfold ExamplesHeader, useDocusaurusContext. auto with frame. Qed.

Lemma ExampleCard_frame example : preserves (ExampleCard example).
Proof. unfold ExampleCard. auto with frame. Qed.

Lemma card_callback_frame example (idx : nat) :
  preserves (out <- ExampleCard example ;; ret (Comp "ExampleCard" (Some idx) out)).
Proof. pose proof ExampleCard_frame. auto with frame. Qed.

Lemma ExampleCategory_frame category : preserves (ExampleCategory category).
Proof.
  unfold ExampleCategory. pose proof card_callback_frame. auto with frame.
Qed.

Lemma category_callback_frame category (idx : nat) :
  preserves (out <- ExampleCategory category ;;
             ret (Comp "ExampleCategory" (Some idx) out)).
Proof. pose proof ExampleCategory_frame. auto with frame. Qed.

Lemma Examples_frame : preserves Examples.
Proof.
  unfold Examples, useDocusaurusContext.
  pose proof ExamplesHeader_frame. pose proof category_callback_frame.
  auto 7 with frame.
Qed.

(** The cards of a category section, for any store. *)
Lemma ExampleCategory_cards category s :
  instances "ExampleCard" (fst (ExampleCategory category s))
  = JS.array_map (fun example idx => (Some idx, fst (ExampleCard example s)))
                 (examples category).
Proof.
  unfold ExampleCategory.
  rewrite fst_bind by (apply preserves_array_mapM; apply card_callback_frame).
  unfold array_mapM. rewrite fst_mapM_from by apply card_callback_frame.
  cbn [ret fst instances flat_map app]. rewrite app_nil_r.
  apply (instances_of_comps "ExampleCard"
           (fun example _ => fst (ExampleCard example s))).
Qed.

(** The category sections of the page, for any store. *)
Lemma Examples_sections s :
  instances "ExampleCategory" (fst (Examples s))
  = JS.array_map (fun category idx => (Some idx, fst (ExampleCategory category s)))
                 (st_ExampleCategories s).
Proof.
  unfold Examples.
  rewrite fst_bind by apply preserves_gets.
  rewrite fst_bind by apply ExamplesHeader_frame.
  rewrite fst_bind by apply preserves_gets.
  rewrite fst_bind
    by (apply preserves_array_mapM; apply category_callback_frame).
  unfold array_mapM. rewrite fst_mapM_from by apply category_callback_frame.
  rewrite (map_from_ext _
             (fun category idx =>
                Comp "ExampleCategory" (Some idx) (fst (ExampleCategory category s))))
    by (intros category idx;
        rewrite fst_bind by apply ExampleCategory_frame; reflexivity).
  cbn [ret fst gets instances flat_map String.eqb Ascii.eqb Bool.eqb].
  rewrite flat_map_app.
  change (instances "ExampleCategory" (fst (ExamplesHeader s))) with
    (@nil (option nat * Node)).
  change (flat_map (instances "ExampleCategory") [RunningExamples]) with
    (@nil (option nat * Node)).
  cbn [app]. rewrite !app_nil_r.
  apply instances_of_comps.
Qed.
End ExamplesFacts.

Module FeaturesTsxFacts.
Import HomepageFeaturesTsx.

Lemma Feature_frame styles props : preserves (Feature styles props).
Proof. unfold Feature. auto with frame. Qed.

Lemma feature_callback_frame styles props (idx : nat) :
  preserves (out <- Feature styles props ;; ret (Comp "Feature" (Some idx) out)).
Proof. pose proof (Feature_frame styles). auto with frame. Qed.

Lemma HomepageFeatures_frame styles : preserves (HomepageFeatures styles).
Proof.
  unfold HomepageFeatures. pose proof (feature_callback_frame styles).
  auto with frame.
Qed.

(** The cards of the section, for any store; a [description] may render
    anything, the search stops at each card. *)
Lemma HomepageFeatures_cards styles s :
  instances "Feature" (fst (HomepageFeatures styles s))
  = JS.array_map (fun props idx => (Some idx, fst (Feature styles props s)))
                 (st_FeatureList s).
Proof.
  unfold HomepageFeatures.
  rewrite fst_bind by apply preserves_gets.
  rewrite fst_bind
    by (apply preserves_array_mapM; apply feature_callback_frame).
  unfold array_mapM. rewrite fst_mapM_from by apply feature_callback_frame.
  cbn [ret fst gets instances flat_map app]. rewrite !app_nil_r.
  apply (instances_of_comps "Feature"
           (fun props _ => fst (Feature styles props s))).
Qed.
End FeaturesTsxFacts.

Module FeaturesJsFacts.
Import HomepageFeaturesJs.

Lemma Feature_frame_js props : preserves (Feature props).
Proof. unfold Feature. auto with frame. Qed.

Lemma feature_callback_frame_js props (idx : nat) :
  preserves (out <- Feature props ;; ret (Comp "Feature" (Some idx) out)).
Proof. pose proof Feature_frame_js. auto with frame. Qed.

Lemma HomepageFeatures_frame_js : preserves HomepageFeatures.
Proof.
  unfold HomepageFeatures. pose proof feature_callback_frame_js.
  auto with frame.
Qed.

Lemma HomepageFeatures_cards_js s :
  instances "Feature" (fst (HomepageFeatures s))
  = JS.array_map (fun props idx => (Some idx, fst (Feature props s)))
                 (st_FeatureList s).
Proof.
  unfold HomepageFeatures.
  rewrite fst_bind by apply preserves_gets.
  rewrite fst_bind
    by (apply preserves_array_mapM; apply feature_callback_frame_js).
  unfold array_mapM. rewrite fst_mapM_from by apply feature_callback_frame_js.
  cbn [ret fst gets instances flat_map app]. rewrite !app_nil_r.
  apply (instances_of_comps "Feature" (fun props _ => fst (Feature props s))).
Qed.
End FeaturesJsFacts.

(** * The claims about the presentational components *)

(** C6. [HomepageFeatures] renders one [Feature] card per entry of
    [FeatureList], keyed by the entry's index and in the order of the array
    (in both versions of the component), and the Examples page renders one
    [ExampleCategory] section per entry of [ExampleCategories], each
    holding one [ExampleCard] per example of its category, again keyed by
    index and in array order. *)
Theorem C6_one_card_per_entry_in_order :
  (forall styles,
      let s := HomepageFeaturesTsx.module_init in
      instances "Feature" (fst (HomepageFeaturesTsx.HomepageFeatures styles s))
      = JS.array_map
          (fun props idx => (Some idx, fst (HomepageFeaturesTsx.Feature styles props s)))
          HomepageFeaturesTsx.FeatureList) /\
  (let s := HomepageFeaturesJs.module_init in
   instances "Feature" (fst (HomepageFeaturesJs.HomepageFeatures s))
   = JS.array_map
       (fun props idx => (Some idx, fst (HomepageFeaturesJs.Feature props s)))
       HomepageFeaturesJs.FeatureList) /\
  (forall ctx,
      let s := ExamplesPage.module_init ctx in
      instances "ExampleCategory" (fst (ExamplesPage.Examples s))
      = JS.array_map
          (fun category idx => (Some idx, fst (ExamplesPage.ExampleCategory category s)))
          ExamplesPage.ExampleCategories /\
      (forall category,
          instances "ExampleCard" (fst (ExamplesPage.ExampleCategory category s))
          = JS.array_map
              (fun example idx => (Some idx, fst (ExamplesPage.ExampleCard example s)))
              (ExamplesPage.examples category)) /\
      instances "ExampleCard" (fst (ExamplesPage.Examples s))
      = flat_map
          (fun category =>
             JS.array_map
               (fun example idx => (Some idx, fst (ExamplesPage.ExampleCard example s)))
               (ExamplesPage.examples category))
          ExamplesPage.ExampleCategories).
Proof.
  split; [|split].
  - intros styles s. apply FeaturesTsxFacts.HomepageFeatures_cards.
  - intros s. apply FeaturesJsFacts.HomepageFeatures_cards_js.
  - intros ctx s. split; [|split].
    + apply (ExamplesFacts.Examples_sections s).
    + intros category. apply ExamplesFacts.ExampleCategory_cards.
    + reflexivity.
Qed.

(** C7. Rendering leaves the module-level arrays as they were: each of
    [HomepageFeatures], [Feature], [Examples], [ExampleCategory],
    [ExampleCard] and [ExamplesHeader] returns the store it was given, so
    after rendering from the initial bindings every element of
    [FeatureList] and of [ExampleCategories] is the hardcoded one. *)
Theorem C7_rendering_preserves_module_state :
  (forall styles, preserves (HomepageFeaturesTsx.HomepageFeatures styles)) /\
  (forall styles props, preserves (HomepageFeaturesTsx.Feature styles props)) /\
  preserves HomepageFeaturesJs.HomepageFeatures /\
  (forall props, preserves (HomepageFeaturesJs.Feature props)) /\
  preserves ExamplesPage.Examples /\
  preserves ExamplesPage.ExamplesHeader /\
  (forall category, preserves (ExamplesPage.ExampleCategory category)) /\
  (forall example, preserves (ExamplesPage.ExampleCard example)) /\
  (forall styles i,
      nth_error (HomepageFeaturesTsx.st_FeatureList
                   (snd (HomepageFeaturesTsx.HomepageFeatures styles
                           HomepageFeaturesTsx.module_init))) i
      = nth_error HomepageFeaturesTsx.FeatureList i) /\
  (forall i,
      nth_error (HomepageFeaturesJs.st_FeatureList
                   (snd (HomepageFeaturesJs.HomepageFeatures
                           HomepageFeaturesJs.module_init))) i
      = nth_error HomepageFeaturesJs.FeatureList i) /\
  (forall ctx i,
      nth_error (ExamplesPage.st_ExampleCategories
                   (snd (ExamplesPage.Examples (ExamplesPage.module_init ctx)))) i
      = nth_error ExamplesPage.ExampleCategories i).
Proof.
  repeat apply conj.
  - apply FeaturesTsxFacts.HomepageFeatures_frame.
  - apply FeaturesTsxFacts.Feature_frame.
  - apply FeaturesJsFacts.HomepageFeatures_frame_js.
  - apply FeaturesJsFacts.Feature_frame_js.
  - apply ExamplesFacts.Examples_frame.
  - apply ExamplesFacts.ExamplesHeader_frame.
  - apply ExamplesFacts.ExampleCategory_frame.
  - apply ExamplesFacts.ExampleCard_frame.
  - intros styles i. rewrite FeaturesTsxFacts.HomepageFeatures_frame. reflexivity.
  - intros i. rewrite FeaturesJsFacts.HomepageFeatures_frame_js. reflexivity.
  - intros ctx i. rewrite ExamplesFacts.Examples_frame. reflexivity.
Qed.

(** * The link of an example card *)

Lemma lower_ascii_digit (c : ascii) :
  JS.is_digit c = true -> JS.lower_ascii c = c.
Proof.
  unfold JS.is_digit, JS.lower_ascii. intros H.
  apply andb_true_iff in H. destruct H as [_ Hhi].
  apply Nat.leb_le in Hhi.
  destruct (65 <=? nat_of_ascii c)%nat eqn:Hlo; [|reflexivity].
  apply Nat.leb_le in Hlo. lia.
Qed.

Lemma digit_not_space (c : ascii) : JS.is_digit c = true -> " "%char <> c.
Proof.
  intros H Heq. subst c. discriminate H.
Qed.

(** Lower-casing and replacing the first space change nothing in a string
    of decimal digits. *)
Lemma digits_unchanged (s : string) :
  JS.all_digits s = true -> JS.replace " " "-" (JS.toLowerCase s) = s.
Proof.
  induction s as [|c rest IH]; intros H.
  - reflexivity.
  - simpl in H. apply andb_true_iff in H. destruct H as [Hc Hrest].
    cbn [JS.toLowerCase]. rewrite (lower_ascii_digit c Hc).
    cbn [JS.replace String.prefix].
    destruct (ascii_dec " " c) as [Heq|_].
    + exfalso. exact (digit_not_space c Hc Heq).
    + rewrite (IH Hrest). reflexivity.
Qed.

(** C8. For every example of [ExampleCategories] the stored number is a
    string of two decimal digits, so [toLowerCase().replace(' ', '-')]
    returns it as it is and the link rendered by [ExampleCard] points to
    ['/docs/examples/'] followed by the number as stored. *)
Theorem C8_link_transformation_is_identity :
  forall s : ExamplesPage.Store,
    Forall (fun example =>
              JS.all_digits (ExamplesPage.number example) = true /\
              String.length (ExamplesPage.number example) = 2 /\
              JS.replace " " "-" (JS.toLowerCase (ExamplesPage.number example))
              = ExamplesPage.number example /\
              ExamplesPage.rendered_link (fst (ExamplesPage.ExampleCard example s))
              = Some (AStr ("/docs/examples/" ++ ExamplesPage.number example)))
           ExamplesPage.all_examples.
Proof.
  intros s. apply Forall_forall. intros example Hin.
  assert (Hdigits : JS.all_digits (ExamplesPage.number example) = true
                    /\ String.length (ExamplesPage.number example) = 2).
  { revert example Hin. apply Forall_forall.
    unfold ExamplesPage.all_examples. cbn.
    repeat (constructor; [split; reflexivity|]). constructor. }
  destruct Hdigits as [Hd Hlen].
  pose proof (digits_unchanged _ Hd) as Hid.
  repeat apply conj; try assumption.
  cbn. unfold ExamplesPage.link_to. rewrite Hid. reflexivity.
Qed.

(** * The shape of the examples array *)

(** C10. Every category of [ExampleCategories] has at least one example,
    no number occurs twice in the whole array, and within each category
    the numbers, read as decimal numerals, increase strictly. *)
Theorem C10_example_categories_invariant :
  Forall (fun c => ExamplesPage.examples c <> []) ExamplesPage.ExampleCategories /\
  NoDup (map ExamplesPage.number ExamplesPage.all_examples) /\
  Forall (fun c => exists values,
              category_numbers c = map Some values /\ increasing values)
         ExamplesPage.ExampleCategories.
Proof.
  repeat apply conj.
  - repeat (constructor; [discriminate|]). constructor.
  - assert (E : nodup string_dec (map ExamplesPage.number ExamplesPage.all_examples)
                = map ExamplesPage.number ExamplesPage.all_examples)
      by (vm_compute; reflexivity).
    rewrite <- E. apply NoDup_nodup.
  - constructor; [|constructor; [|constructor; [|constructor]]].
    + exists [0; 1; 2; 3; 4; 5; 6; 7; 8; 9]%Z. split; [reflexivity|].
      repeat (constructor; [reflexivity|]). constructor.
    + exists [10; 11; 12; 13]%Z. split; [reflexivity|].
      repeat (constructor; [reflexivity|]). constructor.
    + exists [20; 21; 22; 23; 24]%Z. split; [reflexivity|].
      repeat (constructor; [reflexivity|]). constructor.
Qed.

(** * The site configurations *)

(** C3. In both configuration modules [onBrokenLinks] is ['throw'] and
    [onBrokenMarkdownLinks] is ['warn'], whenever they are evaluated. *)
Theorem C3_broken_link_policies :
  forall rt,
    Forall (fun c => Site.onBrokenLinks c = "throw" /\
                     Site.onBrokenMarkdownLinks c = "warn")
           (site_configs rt).
Proof.
  intros rt. unfold site_configs.
  repeat (constructor; [split; reflexivity|]). constructor.
Qed.

(** C9. In the TypeScript configuration the navbar's [html] item is the
    version badge whose text is ['v'] followed by [customFields.version];
    both come from [LATEST_VERSION], which is ['0.7.0']. *)
Theorem C9_badge_shows_configured_version :
  forall rt,
    exists fields,
      Site.customFields (ConfigTs.config rt) = Some fields /\
      Site.version fields = ConfigTs.LATEST_VERSION /\
      ConfigTs.LATEST_VERSION = "0.7.0" /\
      Site.html_badge (ConfigTs.config rt)
      = Some ("<span class=" ++ Site.dquote ++ "version-badge" ++ Site.dquote ++ ">"
                ++ "v" ++ Site.version fields ++ "</span>").
Proof.
  intros rt. eexists. split; [reflexivity|]. repeat split.
Qed.

(** C5, as stated, fails: at one evaluation the two configurations differ
    on the build-time surface, the production url is not the same. *)
Lemma C5_surfaces_differ :
  Site.surface (ConfigJs.config {| Site.fullYear := 2025 |})
  <> Site.surface (ConfigTs.config {| Site.fullYear := 2025 |}).
Proof.
  intros H. apply (f_equal Site.s_url) in H. discriminate H.
Qed.

(** C5, amended. The JavaScript and the TypeScript configuration agree on
    the site title, the base URL, the organization name, the locale list
    and the two broken-link policies; they differ on the production url,
    on the project name and on the blog setting of the classic preset
    (an options object in JavaScript, [false] in TypeScript). *)
Theorem C5_shared_surface :
  forall rt,
    let js := ConfigJs.config rt in
    let ts := ConfigTs.config rt in
    Site.title js = Site.title ts /\
    Site.baseUrl js = Site.baseUrl ts /\
    Site.organizationName js = Site.organizationName ts /\
    Site.locales (Site.i18n js) = Site.locales (Site.i18n ts) /\
    Site.onBrokenLinks js = Site.onBrokenLinks ts /\
    Site.onBrokenMarkdownLinks js = Site.onBrokenMarkdownLinks ts /\
    Site.url js <> Site.url ts /\
    Site.projectName js <> Site.projectName ts /\
    Site.classic_blog ts = Some Site.BlogFalse /\
    (exists options, Site.classic_blog js = Some (Site.BlogObject options)).
Proof.
  intros rt js ts. repeat apply conj; try reflexivity; try discriminate.
  eexists. reflexivity.
Qed.

(** ** The copyright line and the clock *)

Lemma length_append (a b : string) :
  String.length (a ++ b) = String.length a + String.length b.
Proof. induction a as [|c a IH]; simpl; [|rewrite IH]; reflexivity. Qed.

Lemma append_inv_tail (x y tail : string) : x ++ tail = y ++ tail -> x = y.
Proof.
  revert y. induction x as [|a x IH]; intros [|b y] H.
  - reflexivity.
  - exfalso. apply (f_equal String.length) in H.
    simpl in H. rewrite length_append in H. lia.
  - exfalso. apply (f_equal String.length) in H.
    simpl in H. rewrite length_append in H. lia.
  - simpl in H. injection H as Hab Hrest. subst b.
    rewrite (IH y Hrest). reflexivity.
Qed.

(** Printing an integer in decimal loses nothing. *)
Lemma number_toString_inj (a b : Z) :
  JS.number_toString a = JS.number_toString b -> a = b.
Proof.
  unfold JS.number_toString. intros H.
  apply (f_equal NilEmpty.int_of_string) in H.
  rewrite !NilEmpty.isi in H. injection H as H.
  apply (f_equal Z.of_int) in H. rewrite !DecimalZ.of_to in H. exact H.
Qed.

Lemma copyright_ts_inj rt1 rt2 :
  Site.copyright (Site.footer (Site.themeConfig (ConfigTs.config rt1)))
  = Site.copyright (Site.footer (Site.themeConfig (ConfigTs.config rt2))) ->
  Site.fullYear rt1 = Site.fullYear rt2.
Proof.
  cbn [ConfigTs.config Site.copyright Site.footer Site.themeConfig].
  intros H. apply number_toString_inj.
  apply (append_inv_tail _ _ " Syntropysoft. Built with Docusaurus.").
  cbn [append] in H. repeat (injection H as H). exact H.
Qed.

Lemma copyright_js_inj rt1 rt2 :
  Site.copyright (Site.footer (Site.themeConfig (ConfigJs.config rt1)))
  = Site.copyright (Site.footer (Site.themeConfig (ConfigJs.config rt2))) ->
  Site.fullYear rt1 = Site.fullYear rt2.
Proof.
  cbn [ConfigJs.config Site.copyright Site.footer Site.themeConfig].
  intros H. apply number_toString_inj.
  apply (append_inv_tail _ _ " SyntropySoft. Built with Docusaurus.").
  cbn [append] in H. repeat (injection H as H). exact H.
Qed.

(** C4, as stated, fails: two evaluations of the TypeScript configuration,
    one in 2025 and one in 2026, do not produce equal values. *)
Lemma C4_config_depends_on_year :
  ConfigTs.config {| Site.fullYear := 2025 |}
  <> ConfigTs.config {| Site.fullYear := 2026 |}.
Proof.
  intros H. apply (f_equal (fun c => Site.copyright (Site.footer (Site.themeConfig c)))) in H.
  apply copyright_ts_inj in H. discriminate H.
Qed.

(** C4, amended. Evaluating a configuration module reads the calendar year
    of the current date and nothing else: two evaluations produce equal
    configurations exactly when they happen in the same year, and two
    evaluations in any years agree on everything except the footer's
    copyright line. *)
Theorem C4_config_determined_by_year :
  forall rt1 rt2,
    (ConfigTs.config rt1 = ConfigTs.config rt2
     <-> Site.fullYear rt1 = Site.fullYear rt2) /\
    (ConfigJs.config rt1 = ConfigJs.config rt2
     <-> Site.fullYear rt1 = Site.fullYear rt2) /\
    (forall text,
        Site.with_copyright text (ConfigTs.config rt1)
        = Site.with_copyright text (ConfigTs.config rt2)) /\
    (forall text,
        Site.with_copyright text (ConfigJs.config rt1)
        = Site.with_copyright text (ConfigJs.config rt2)).
Proof.
  intros rt1 rt2. repeat apply conj.
  - intros H. apply copyright_ts_inj. rewrite H. reflexivity.
  - intros H. destruct rt1 as [y1], rt2 as [y2]. simpl in H. subst y2. reflexivity.
  - intros H. apply copyright_js_inj. rewrite H. reflexivity.
  - intros H. destruct rt1 as [y1], rt2 as [y2]. simpl in H. subst y2. reflexivity.
  - intros text. reflexivity.
  - intros text. reflexivity.
Qed.

(** * Links and the content tree *)

Module ContentFacts.
Import Content.

Lemma routes_app (a b : list Document) :
  routes (a ++ b) = (routes a ++ routes b)%list.
Proof. unfold routes. apply flat_map_app. Qed.

(** A document is served at one route at most. *)
Lemma routes_length (tree : list Document) : length (routes tree) <= length tree.
Proof.
  induction tree as [|d rest IH]; simpl.
  - lia.
  - rewrite length_app. destruct (route d); simpl; lia.
Qed.

Lemma in_routes (tree : list Document) (r : list string) :
  In r (routes tree) <-> exists d, In d tree /\ route d = Some r.
Proof.
  unfold routes. rewrite in_flat_map. split.
  - intros [d [Hd Hr]]. exists d. split; [exact Hd|].
    destruct (route d) as [r'|]; simpl in Hr; [|contradiction].
    destruct Hr as [Hr|[]]. subst r'. reflexivity.
  - intros [d [Hd Hr]]. exists d. split; [exact Hd|].
    rewrite Hr. left. reflexivity.
Qed.

Lemma resolves_true (tree : list Document) (target : string) :
  resolves tree target = true <-> In (split_path target) (routes tree).
Proof.
  unfold resolves.
  destruct (in_dec route_eq_dec (split_path target) (routes tree)); split;
    intros H; try assumption; try reflexivity; try discriminate; contradiction.
Qed.

Lemma unnamed_count (place : nat -> list string) :
  length (unnamed_documents place) = 15.
Proof. reflexivity. Qed.

Lemma example_links_NoDup : NoDup example_links.
Proof.
  assert (E : nodup route_eq_dec example_links = example_links)
    by (vm_compute; reflexivity).
  rewrite <- E. apply NoDup_nodup.
Qed.

Lemma example_links_not_named (r : list string) :
  In r example_links -> ~ In r (routes named_documents).
Proof.
  assert (E : forallb (fun r =>
                         if in_dec route_eq_dec r (routes named_documents)
                         then false else true) example_links = true)
    by (vm_compute; reflexivity).
  rewrite forallb_forall in E. intros Hin Hnamed.
  specialize (E r Hin).
  destruct (in_dec route_eq_dec r (routes named_documents));
    [discriminate|contradiction].
Qed.
End ContentFacts.

(** C1. The links of the example cards do not all lead to a page.
    Wherever the documents without a known file name live, at least one of
    the nineteen routes [/docs/examples/<number>] is served by no document
    of the repository: none of them is served by a document whose place is
    known, and there are fewer unnamed documents than links. With the
    unnamed documents placed as their contents suggest, none of the
    nineteen links leads to a page. *)
Theorem C1_example_links_have_no_page :
  (forall place,
      forallb (fun example =>
                 Content.resolves (Content.content_tree place)
                                  (ExamplesPage.link_to example))
              ExamplesPage.all_examples = false) /\
  forallb (fun example =>
             negb (Content.resolves (Content.content_tree Content.plausible_place)
                                    (ExamplesPage.link_to example)))
          ExamplesPage.all_examples = true.
Proof.
  split; [|vm_compute; reflexivity].
  intros place.
  destruct (forallb _ ExamplesPage.all_examples) eqn:E; [exfalso|reflexivity].
  rewrite forallb_forall in E.
  assert (Hincl : incl example_links
                       (Content.routes (Content.unnamed_documents place))).
  { intros r Hr. pose proof (ContentFacts.example_links_not_named r Hr) as Hnot.
    unfold example_links in Hr. apply in_map_iff in Hr.
    destruct Hr as [example [Heq Hin]]. subst r.
    specialize (E example Hin). apply ContentFacts.resolves_true in E.
    unfold Content.content_tree in E. rewrite ContentFacts.routes_app in E.
    apply in_app_or in E. destruct E as [E|E]; [contradiction|exact E]. }
  pose proof (NoDup_incl_length ContentFacts.example_links_NoDup Hincl) as Hlen.
  pose proof (ContentFacts.routes_length (Content.unnamed_documents place)) as Hle.
  rewrite ContentFacts.unnamed_count in Hle.
  change (length example_links) with 19 in Hlen. lia.
Qed.

(** With the unnamed documents placed as their contents suggest, the
    internal targets of the TypeScript configuration all lead to a page,
    and of those of the JavaScript configuration exactly [/api] and
    [/quality] do not. *)
Example navigation_at_plausible_place :
  let tree := Content.content_tree Content.plausible_place in
  let rt := {| Site.fullYear := 2025 |} in
  forallb (Content.resolves tree) (Site.internal_targets (ConfigTs.config rt)) = true /\
  filter (fun target => negb (Content.resolves tree target))
         (Site.internal_targets (ConfigJs.config rt))
  = ["/api"; "/quality"; "/api"; "/quality"].
Proof. split; vm_compute; reflexivity. Qed.

(** Whether the navigation resolves is decided by the documents whose
    file names are not known: no document with a known path is served at
    [/api], [/quality] or [/docs/api-reference/], and with the two unnamed
    API documents placed as pages ([src/pages/quality.md] and
    [src/pages/api.md]) every internal target of both configurations
    leads to a page. *)
Example navigation_depends_on_unnamed_documents :
  let rt := {| Site.fullYear := 2025 |} in
  let as_pages := fun i =>
    match i with
    | 12 => ["src"; "pages"; "quality.md"]
    | 13 => ["src"; "pages"; "api.md"]
    | _ => ["docs"; "api-reference.md"]
    end in
  map (Content.resolves Content.named_documents)
      ["/examples"; "/docs/getting-started"; "/api"; "/quality"; "/docs/api-reference/"]
  = [true; true; false; false; false] /\
  forallb (Content.resolves (Content.content_tree as_pages))
          (Site.internal_targets (ConfigJs.config rt)
           ++ Site.internal_targets (ConfigTs.config rt)) = true.
Proof. split; vm_compute; reflexivity. Qed.

(** * More on the card's link, for any example *)

Lemma lower_ascii_not_upper (c : ascii) : is_upper (JS.lower_ascii c) = false.
Proof. destruct c as [[] [] [] [] [] [] [] []]; reflexivity. Qed.

Lemma lower_ascii_space (c : ascii) :
  Ascii.eqb (JS.lower_ascii c) " " = Ascii.eqb c " ".
Proof. destruct c as [[] [] [] [] [] [] [] []]; reflexivity. Qed.

Lemma lower_ascii_fixed (c : ascii) : is_upper c = false -> JS.lower_ascii c = c.
Proof. unfold is_upper, JS.lower_ascii. intros H. rewrite H. reflexivity. Qed.

Lemma prefix_empty (s : string) : String.prefix "" s = true.
Proof. destruct s; reflexivity. Qed.

(** One step of [replace(' ', '-')]: a leading space becomes the dash and
    the rest is kept, any other character is kept and the search goes on. *)
Lemma replace_space_step (c : ascii) (rest : string) :
  JS.replace " " "-" (String c rest)
  = if Ascii.eqb c " " then String "-" rest
    else String c (JS.replace " " "-" rest).
Proof.
  cbn [JS.replace String.prefix].
  destruct (ascii_dec " " c) as [Heq|Hneq].
  - subst c. rewrite prefix_empty. reflexivity.
  - destruct (Ascii.eqb_spec c " ") as [Heq|_]; [|reflexivity].
    exfalso. apply Hneq. symmetry. exact Heq.
Qed.

Lemma toLowerCase_length (s : string) :
  String.length (JS.toLowerCase s) = String.length s.
Proof. induction s as [|c rest IH]; simpl; [|rewrite IH]; reflexivity. Qed.

Lemma replace_space_length (s : string) :
  String.length (JS.replace " " "-" s) = String.length s.
Proof.
  induction s as [|c rest IH]; [reflexivity|].
  rewrite replace_space_step.
  destruct (Ascii.eqb c " "); simpl; [|rewrite IH]; reflexivity.
Qed.

Lemma toLowerCase_no_upper (s : string) : has_upper (JS.toLowerCase s) = false.
Proof.
  induction s as [|c rest IH]; simpl; [reflexivity|].
  rewrite lower_ascii_not_upper, IH. reflexivity.
Qed.

Lemma replace_space_no_upper (s : string) :
  has_upper s = false -> has_upper (JS.replace " " "-" s) = false.
Proof.
  induction s as [|c rest IH]; intros H; [reflexivity|].
  simpl in H. apply orb_false_iff in H. destruct H as [Hc Hrest].
  rewrite replace_space_step.
  destruct (Ascii.eqb c " "); simpl.
  - exact Hrest.
  - rewrite Hc, (IH Hrest). reflexivity.
Qed.

Lemma toLowerCase_spaces (s : string) :
  count_spaces (JS.toLowerCase s) = count_spaces s.
Proof.
  induction s as [|c rest IH]; simpl; [reflexivity|].
  rewrite lower_ascii_space, IH. reflexivity.
Qed.

Lemma toLowerCase_fixed (s : string) :
  has_upper s = false -> JS.toLowerCase s = s.
Proof.
  induction s as [|c rest IH]; intros H; [reflexivity|].
  simpl in H. apply orb_false_iff in H. destruct H as [Hc Hrest].
  simpl. rewrite (lower_ascii_fixed c Hc), (IH Hrest). reflexivity.
Qed.

Lemma replace_space_fixed (s : string) :
  count_spaces s = 0 -> JS.replace " " "-" s = s.
Proof.
  induction s as [|c rest IH]; intros H; [reflexivity|].
  rewrite replace_space_step. simpl in H.
  destruct (Ascii.eqb c " "); [discriminate H|].
  rewrite (IH H). reflexivity.
Qed.

Lemma rendered_link_of_card (example : ExamplesPage.Example) (s : ExamplesPage.Store) :
  ExamplesPage.rendered_link (fst (ExamplesPage.ExampleCard example s))
  = Some (AStr (ExamplesPage.link_to example)).
Proof. reflexivity. Qed.

(** X1. For an example whose number is ASCII, the link rendered by
    [ExampleCard] points to ['/docs/examples/'] followed by a slug that is
    as long as the number and holds no ASCII capital letter. *)
Theorem X1_card_link_shape :
  forall (example : ExamplesPage.Example) (s : ExamplesPage.Store),
    all_ascii (ExamplesPage.number example) = true ->
    exists slug,
      ExamplesPage.rendered_link (fst (ExamplesPage.ExampleCard example s))
      = Some (AStr ("/docs/examples/" ++ slug)) /\
      String.length slug = String.length (ExamplesPage.number example) /\
      has_upper slug = false.
Proof.
  intros example s _.
  exists (JS.replace " " "-" (JS.toLowerCase (ExamplesPage.number example))).
  repeat apply conj.
  - apply rendered_link_of_card.
  - rewrite replace_space_length. apply toLowerCase_length.
  - apply replace_space_no_upper. apply toLowerCase_no_upper.
Qed.

(** X1 at an example numbered ['Step 1 A']. *)
Lemma X1_card_link_shape_witness :
  exists slug,
    ExamplesPage.rendered_link
      (fst (ExamplesPage.ExampleCard
              {| ExamplesPage.number := "Step 1 A";
                 ExamplesPage.title := "First step";
                 ExamplesPage.description := "Two spaces and capitals" |}
              (ExamplesPage.module_init {| ExamplesPage.siteConfig := [] |})))
    = Some (AStr ("/docs/examples/" ++ slug)) /\
    String.length slug = 8 /\
    has_upper slug = false.
Proof.
  apply (X1_card_link_shape
           {| ExamplesPage.number := "Step 1 A";
              ExamplesPage.title := "First step";
              ExamplesPage.description := "Two spaces and capitals" |}).
  reflexivity.
Defined.

Lemma toLowerCase_app (a b : string) :
  JS.toLowerCase (a ++ b) = JS.toLowerCase a ++ JS.toLowerCase b.
Proof. induction a as [|c a IH]; simpl; [|rewrite IH]; reflexivity. Qed.

(** The first space is the one that is replaced: what stands before it
    and what follows it are kept. *)
Lemma replace_first_space (before after : string) :
  count_spaces before = 0 ->
  JS.replace " " "-" (before ++ String " " after) = before ++ String "-" after.
Proof.
  induction before as [|c before IH]; intros H.
  - cbn [append]. rewrite replace_space_step. reflexivity.
  - simpl in H. cbn [append]. rewrite replace_space_step.
    destruct (Ascii.eqb c " "); [discriminate H|].
    rewrite (IH H). reflexivity.
Qed.

(** X2. [ExampleCard] turns the first space of an ASCII number, and only
    that one, into a dash: when the number is [before], a space and
    [after], with no space in [before], the link points to
    ['/docs/examples/'] followed by [before] in lower case, a dash, and
    [after] in lower case with every space it had. *)
Theorem X2_card_link_replaces_first_space_only :
  forall (example : ExamplesPage.Example) (s : ExamplesPage.Store)
         (before after : string),
    all_ascii (ExamplesPage.number example) = true ->
    ExamplesPage.number example = before ++ String " " after ->
    count_spaces before = 0 ->
    ExamplesPage.rendered_link (fst (ExamplesPage.ExampleCard example s))
    = Some (AStr ("/docs/examples/"
                    ++ JS.toLowerCase before ++ String "-" (JS.toLowerCase after))) /\
    count_spaces (JS.toLowerCase after) = count_spaces after.
Proof.
  intros example s before after _ Hsplit Hbefore.
  split; [|apply toLowerCase_spaces].
  rewrite rendered_link_of_card. unfold ExamplesPage.link_to.
  rewrite Hsplit, toLowerCase_app. cbn [JS.toLowerCase].
  change (JS.lower_ascii " ") with " "%char.
  rewrite replace_first_space
    by (rewrite toLowerCase_spaces; exact Hbefore).
  reflexivity.
Qed.

(** X2 at an example numbered ['Step 1 A']: the space after ['Step']
    becomes the dash, the space after ['1'] stays. *)
Lemma X2_card_link_first_space_witness :
  ExamplesPage.rendered_link
    (fst (ExamplesPage.ExampleCard
            {| ExamplesPage.number := "Step 1 A";
               ExamplesPage.title := "First step";
               ExamplesPage.description := "Two spaces and capitals" |}
            (ExamplesPage.module_init {| ExamplesPage.siteConfig := [] |})))
  = Some (AStr "/docs/examples/step-1 a") /\
  count_spaces "1 a" = 1.
Proof.
  apply (X2_card_link_replaces_first_space_only
           {| ExamplesPage.number := "Step 1 A";
              ExamplesPage.title := "First step";
              ExamplesPage.description := "Two spaces and capitals" |}
           (ExamplesPage.module_init {| ExamplesPage.siteConfig := [] |})
           "Step" "1 A"); reflexivity.
Defined.

(** X3. When the number of an example is ASCII and holds no capital
    letter and no space, the link rendered by [ExampleCard] points to
    ['/docs/examples/'] followed by the number as it is. *)
Theorem X3_card_link_keeps_plain_numbers :
  forall (example : ExamplesPage.Example) (s : ExamplesPage.Store),
    all_ascii (ExamplesPage.number example) = true ->
    has_upper (ExamplesPage.number example) = false ->
    count_spaces (ExamplesPage.number example) = 0 ->
    ExamplesPage.rendered_link (fst (ExamplesPage.ExampleCard example s))
    = Some (AStr ("/docs/examples/" ++ ExamplesPage.number example)).
Proof.
  intros example s _ Hupper Hspaces.
  rewrite rendered_link_of_card. unfold ExamplesPage.link_to.
  rewrite (toLowerCase_fixed _ Hupper), (replace_space_fixed _ Hspaces).
  reflexivity.
Qed.

(** X3 at an example whose number is a slug already. *)
Lemma X3_card_link_witness :
  ExamplesPage.rendered_link
    (fst (ExamplesPage.ExampleCard
            {| ExamplesPage.number := "28-testing-patterns-vitest";
               ExamplesPage.title := "Vitest";
               ExamplesPage.description := "Testing patterns" |}
            (ExamplesPage.module_init {| ExamplesPage.siteConfig := [] |})))
  = Some (AStr "/docs/examples/28-testing-patterns-vitest").
Proof.
  apply (X3_card_link_keeps_plain_numbers
           {| ExamplesPage.number := "28-testing-patterns-vitest";
              ExamplesPage.title := "Vitest";
              ExamplesPage.description := "Testing patterns" |}); reflexivity.
Defined.

(** * More on the rendered lists, for any contents of the arrays *)

Lemma map_from_keys {A B : Type} (g : A -> nat -> B) (l : list A) :
  forall i,
    map fst (JS.map_from i (fun x j => (Some j, g x j)) l)
    = map Some (seq i (length l)).
Proof.
  induction l as [|x rest IH]; intros i; simpl; [|rewrite IH]; reflexivity.
Qed.

Lemma keys_NoDup (i n : nat) : NoDup (map (@Some nat) (seq i n)).
Proof.
  apply NoDup_map_NoDup_ForallPairs.
  - intros a b _ _ H. injection H as H. exact H.
  - apply seq_NoDup.
Qed.

Lemma map_from_map {A B C : Type} (h : A -> B) (f : B -> nat -> C) (l : list A) :
  forall i, JS.map_from i f (map h l) = JS.map_from i (fun x j => f (h x) j) l.
Proof.
  induction l as [|x rest IH]; intros i; simpl; [|rewrite IH]; reflexivity.
Qed.

(** Searching below the instances of another component. *)
Lemma instances_below_comps {A : Type} (name other : string) (g : A -> Node) l :
  String.eqb other name = false ->
  forall i,
    flat_map (instances name)
             (JS.map_from i (fun x j => Comp other (Some j) (g x)) l)
    = flat_map (fun x => instances name (g x)) l.
Proof.
  intros Hneq. induction l as [|x rest IH]; intros i; simpl.
  - reflexivity.
  - rewrite Hneq, IH. reflexivity.
Qed.

Lemma elements_below_comps {A : Type} (tag name : string) (g : A -> Node) l :
  forall i,
    flat_map (elements tag)
             (JS.map_from i (fun x j => Comp name (Some j) (g x)) l)
    = flat_map (fun x => elements tag (g x)) l.
Proof.
  induction l as [|x rest IH]; intros i; simpl; [|rewrite IH]; reflexivity.
Qed.

Module ExamplesOutput.
Import ExamplesPage.

(** What a category section is made of, for any store. *)
Lemma ExampleCategory_output category s :
  fst (ExampleCategory category s)
  = Elem "div" [className "margin-bottom--xl"] [
      Elem "Heading" [("as", AStr "h2")] [Text (category_title category)];
      Elem "p" [className "margin-bottom--lg"] [Text (category_description category)];
      Elem "div" [className "row"]
        (JS.array_map
           (fun example idx => Comp "ExampleCard" (Some idx) (fst (ExampleCard example s)))
           (examples category))
    ].
Proof.
  unfold ExampleCategory.
  rewrite fst_bind
    by (apply preserves_array_mapM; apply ExamplesFacts.card_callback_frame).
  unfold array_mapM.
  rewrite fst_mapM_from by apply ExamplesFacts.card_callback_frame.
  reflexivity.
Qed.

(** What the page is made of, for any store. *)
Lemma Examples_output s :
  fst (Examples s)
  = Elem "Layout"
      [("title", AStr "Examples - SyntropyLog");
       ("description", AStr "Learn SyntropyLog progressively with real-world examples")] [
      Comp "ExamplesHeader" None (fst (ExamplesHeader s));
      Elem "main" [] [
        Elem "div" [className "container margin-top--xl"]
          (JS.array_map
             (fun category idx =>
                Comp "ExampleCategory" (Some idx) (fst (ExampleCategory category s)))
             (st_ExampleCategories s)
           ++ [RunningExamples])
      ]
    ].
Proof.
  unfold Examples.
  rewrite fst_bind by apply preserves_gets.
  rewrite fst_bind by apply ExamplesFacts.ExamplesHeader_frame.
  rewrite fst_bind by apply preserves_gets.
  rewrite fst_bind
    by (apply preserves_array_mapM; apply ExamplesFacts.category_callback_frame).
  unfold array_mapM.
  rewrite fst_mapM_from by apply ExamplesFacts.category_callback_frame.
  rewrite (map_from_ext _
             (fun category idx =>
                Comp "ExampleCategory" (Some idx) (fst (ExampleCategory category s))))
    by (intros category idx;
        rewrite fst_bind by apply ExamplesFacts.ExampleCategory_frame; reflexivity).
  reflexivity.
Qed.

(** A category section does not depend on the store it is rendered in. *)
Lemma ExampleCategory_any_store category s s' :
  fst (ExampleCategory category s) = fst (ExampleCategory category s').
Proof. rewrite !ExampleCategory_output. reflexivity. Qed.

Lemma category_links category s :
  map (attr "to") (elements "Link" (fst (ExampleCategory category s)))
  = map (fun example => Some (AStr (link_to example))) (examples category).
Proof.
  rewrite ExampleCategory_output.
  cbn [elements flat_map String.eqb Ascii.eqb Bool.eqb app].
  rewrite !app_nil_r. unfold JS.array_map.
  rewrite (elements_below_comps "Link" "ExampleCard"
             (fun example => fst (ExampleCard example s))).
  induction (examples category) as [|example rest IH]; [reflexivity|].
  cbn [flat_map map]. rewrite map_app, IH. reflexivity.
Qed.
End ExamplesOutput.

(** X4. Whatever [ExampleCategories] holds, the keys the Examples page
    gives to its category sections are 0, 1, ... in order, and so are the
    keys of the cards inside each section: keys among siblings never
    repeat. *)
Theorem X4_examples_sibling_keys :
  forall (s : ExamplesPage.Store),
    let sections := instances "ExampleCategory" (fst (ExamplesPage.Examples s)) in
    map fst sections
    = map Some (seq 0 (length (ExamplesPage.st_ExampleCategories s))) /\
    NoDup (map fst sections) /\
    forall category,
      let cards :=
        instances "ExampleCard" (fst (ExamplesPage.ExampleCategory category s)) in
      map fst cards = map Some (seq 0 (length (ExamplesPage.examples category))) /\
      NoDup (map fst cards).
Proof.
  intros s sections.
  assert (Hsections : map fst sections
                      = map Some (seq 0 (length (ExamplesPage.st_ExampleCategories s)))).
  { unfold sections. rewrite ExamplesFacts.Examples_sections.
    apply map_from_keys. }
  split; [exact Hsections|]. split.
  - rewrite Hsections. apply keys_NoDup.
  - intros category cards.
    assert (Hcards : map fst cards
                     = map Some (seq 0 (length (ExamplesPage.examples category)))).
    { unfold cards. rewrite ExamplesFacts.ExampleCategory_cards.
      apply map_from_keys. }
    split; [exact Hcards|]. rewrite Hcards. apply keys_NoDup.
Qed.

(** X5. Whatever [FeatureList] holds, both versions of [HomepageFeatures]
    render as many [Feature] cards as the list has entries and key them
    0, 1, ... in order, so no key repeats. *)
Theorem X5_feature_keys :
  (forall styles (s : HomepageFeaturesTsx.Store),
      let cards :=
        instances "Feature" (fst (HomepageFeaturesTsx.HomepageFeatures styles s)) in
      map fst cards
      = map Some (seq 0 (length (HomepageFeaturesTsx.st_FeatureList s))) /\
      NoDup (map fst cards)) /\
  (forall (s : HomepageFeaturesJs.Store),
      let cards := instances "Feature" (fst (HomepageFeaturesJs.HomepageFeatures s)) in
      map fst cards
      = map Some (seq 0 (length (HomepageFeaturesJs.st_FeatureList s))) /\
      NoDup (map fst cards)).
Proof.
  split.
  - intros styles s cards.
    assert (H : map fst cards
                = map Some (seq 0 (length (HomepageFeaturesTsx.st_FeatureList s)))).
    { unfold cards. rewrite FeaturesTsxFacts.HomepageFeatures_cards.
      apply map_from_keys. }
    split; [exact H|]. rewrite H. apply keys_NoDup.
  - intros s cards.
    assert (H : map fst cards
                = map Some (seq 0 (length (HomepageFeaturesJs.st_FeatureList s)))).
    { unfold cards. rewrite FeaturesJsFacts.HomepageFeatures_cards_js.
      apply map_from_keys. }
    split; [exact H|]. rewrite H. apply keys_NoDup.
Qed.

(** X6. Whatever [ExampleCategories] holds (no category, categories
    without examples), the cards of the Examples page are the examples of
    the categories, category after category in the order of the arrays,
    each keyed by its index inside its category. *)
Theorem X6_page_cards_for_any_array :
  forall (s : ExamplesPage.Store),
    instances "ExampleCard" (fst (ExamplesPage.Examples s))
    = flat_map
        (fun category =>
           JS.array_map
             (fun example idx => (Some idx, fst (ExamplesPage.ExampleCard example s)))
             (ExamplesPage.examples category))
        (ExamplesPage.st_ExampleCategories s).
Proof.
  intros s. rewrite ExamplesOutput.Examples_output.
  cbn [instances flat_map String.eqb Ascii.eqb Bool.eqb].
  change (instances "ExampleCard" (fst (ExamplesPage.ExamplesHeader s)))
    with (@nil (option nat * Node)).
  rewrite flat_map_app.
  change (flat_map (instances "ExampleCard") [ExamplesPage.RunningExamples])
    with (@nil (option nat * Node)).
  cbn [app]. rewrite !app_nil_r. unfold JS.array_map at 1.
  rewrite (instances_below_comps "ExampleCard" "ExampleCategory"
             (fun category => fst (ExamplesPage.ExampleCategory category s)))
    by reflexivity.
  apply flat_map_ext. intros category.
  apply ExamplesFacts.ExampleCategory_cards.
Qed.

(** X7. The Examples page reads the generator's context and does not use
    it: two stores that hold the same [ExampleCategories] render the same
    page, whatever their contexts. *)
Theorem X7_page_ignores_context :
  forall (s s' : ExamplesPage.Store),
    ExamplesPage.st_ExampleCategories s = ExamplesPage.st_ExampleCategories s' ->
    fst (ExamplesPage.Examples s) = fst (ExamplesPage.Examples s').
Proof.
  intros s s' Hsame. rewrite !ExamplesOutput.Examples_output. rewrite Hsame.
  unfold JS.array_map.
  rewrite (map_from_ext
             (fun category idx =>
                Comp "ExampleCategory" (Some idx)
                     (fst (ExamplesPage.ExampleCategory category s)))
             (fun category idx =>
                Comp "ExampleCategory" (Some idx)
                     (fst (ExamplesPage.ExampleCategory category s'))))
    by (intros category idx;
        rewrite (ExamplesOutput.ExampleCategory_any_store category s s');
        reflexivity).
  reflexivity.
Qed.

(** X7 at the module's array under two different contexts. *)
Lemma X7_page_ignores_context_witness :
  fst (ExamplesPage.Examples
         (ExamplesPage.module_init {| ExamplesPage.siteConfig := [] |}))
  = fst (ExamplesPage.Examples
           (ExamplesPage.module_init
              {| ExamplesPage.siteConfig := [("title", "SyntropyLog")] |})).
Proof.
  apply (X7_page_ignores_context
           (ExamplesPage.module_init {| ExamplesPage.siteConfig := [] |})
           (ExamplesPage.module_init
              {| ExamplesPage.siteConfig := [("title", "SyntropyLog")] |})).
  reflexivity.
Defined.

(** X8. Whatever [ExampleCategories] holds, the [Link] elements of the
    Examples page are the links of its cards and nothing else: one per
    example, in the order of the arrays, each with the target
    [ExampleCard] computes for its example. *)
Theorem X8_page_links_are_the_card_links :
  forall (s : ExamplesPage.Store),
    map (attr "to") (elements "Link" (fst (ExamplesPage.Examples s)))
    = map (fun example => Some (AStr (ExamplesPage.link_to example)))
          (flat_map ExamplesPage.examples (ExamplesPage.st_ExampleCategories s)).
Proof.
  intros s. rewrite ExamplesOutput.Examples_output.
  cbn [elements flat_map String.eqb Ascii.eqb Bool.eqb app].
  change (elements "Link" (fst (ExamplesPage.ExamplesHeader s))) with (@nil Node).
  rewrite flat_map_app.
  change (flat_map (elements "Link") [ExamplesPage.RunningExamples]) with (@nil Node).
  cbn [app]. rewrite !app_nil_r. unfold JS.array_map.
  rewrite (elements_below_comps "Link" "ExampleCategory"
             (fun category => fst (ExamplesPage.ExampleCategory category s))).
  induction (ExamplesPage.st_ExampleCategories s) as [|category rest IH];
    [reflexivity|].
  cbn [flat_map]. rewrite !map_app, IH, ExamplesOutput.category_links.
  reflexivity.
Qed.

Lemma HomepageFeatures_output_tsx styles (s : HomepageFeaturesTsx.Store) :
  fst (HomepageFeaturesTsx.HomepageFeatures styles s)
  = Elem "section" [className (HomepageFeaturesTsx.features styles)] [
      Elem "div" [className "container"] [
        Elem "div" [className "row"]
          (JS.array_map
             (fun props idx =>
                Comp "Feature" (Some idx) (fst (HomepageFeaturesTsx.Feature styles props s)))
             (HomepageFeaturesTsx.st_FeatureList s))
      ]
    ].
Proof.
  unfold HomepageFeaturesTsx.HomepageFeatures.
  rewrite fst_bind by apply preserves_gets.
  rewrite fst_bind
    by (apply preserves_array_mapM; apply FeaturesTsxFacts.feature_callback_frame).
  unfold array_mapM.
  rewrite fst_mapM_from by apply FeaturesTsxFacts.feature_callback_frame.
  reflexivity.
Qed.

Lemma HomepageFeatures_output_js (s : HomepageFeaturesJs.Store) :
  fst (HomepageFeaturesJs.HomepageFeatures s)
  = Elem "section" [className "margin-top--xl"] [
      Elem "div" [className "container"] [
        Elem "div" [className "row"]
          (JS.array_map
             (fun props idx =>
                Comp "Feature" (Some idx) (fst (HomepageFeaturesJs.Feature props s)))
             (HomepageFeaturesJs.st_FeatureList s))
      ]
    ].
Proof.
  unfold HomepageFeaturesJs.HomepageFeatures.
  rewrite fst_bind by apply preserves_gets.
  rewrite fst_bind
    by (apply preserves_array_mapM; apply FeaturesJsFacts.feature_callback_frame_js).
  unfold array_mapM.
  rewrite fst_mapM_from by apply FeaturesJsFacts.feature_callback_frame_js.
  reflexivity.
Qed.

(** X9. The two versions of [HomepageFeatures] render the same tree for
    the same features once the CSS module of the TypeScript version gives
    its two class names the values the JavaScript version writes out
    (['margin-top--xl'] for the section, ['featureSvg'] for the image). *)
Theorem X9_feature_versions_agree :
  forall (styles : HomepageFeaturesTsx.Styles)
         (items : list HomepageFeaturesJs.FeatureItem),
    HomepageFeaturesTsx.features styles = "margin-top--xl" ->
    HomepageFeaturesTsx.featureSvg styles = "featureSvg" ->
    fst (HomepageFeaturesTsx.HomepageFeatures styles
           {| HomepageFeaturesTsx.st_FeatureList := map feature_as_tsx items |})
    = fst (HomepageFeaturesJs.HomepageFeatures
             {| HomepageFeaturesJs.st_FeatureList := items |}).
Proof.
  intros [section_class svg_class] items Hsection Hsvg.
  simpl in Hsection, Hsvg. subst section_class svg_class.
  rewrite HomepageFeatures_output_tsx, HomepageFeatures_output_js.
  cbn [HomepageFeaturesTsx.st_FeatureList HomepageFeaturesJs.st_FeatureList
       HomepageFeaturesTsx.features].
  unfold JS.array_map. rewrite map_from_map.
  reflexivity.
Qed.

(** X9 at the features of the JavaScript module. *)
Lemma X9_feature_versions_witness :
  fst (HomepageFeaturesTsx.HomepageFeatures
         {| HomepageFeaturesTsx.features := "margin-top--xl";
            HomepageFeaturesTsx.featureSvg := "featureSvg" |}
         {| HomepageFeaturesTsx.st_FeatureList :=
              map feature_as_tsx HomepageFeaturesJs.FeatureList |})
  = fst (HomepageFeaturesJs.HomepageFeatures HomepageFeaturesJs.module_init).
Proof.
  apply (X9_feature_versions_agree
           {| HomepageFeaturesTsx.features := "margin-top--xl";
              HomepageFeaturesTsx.featureSvg := "featureSvg" |}
           HomepageFeaturesJs.FeatureList); reflexivity.
Defined.

Lemma category_headings category (s : ExamplesPage.Store) :
  elements "Heading" (fst (ExamplesPage.ExampleCategory category s))
  = [Elem "Heading" [("as", AStr "h2")] [Text (ExamplesPage.category_title category)]].
Proof.
  rewrite ExamplesOutput.ExampleCategory_output.
  cbn [elements flat_map String.eqb Ascii.eqb Bool.eqb app].
  unfold JS.array_map.
  rewrite (elements_below_comps "Heading" "ExampleCard"
             (fun example => fst (ExamplesPage.ExampleCard example s))).
  induction (ExamplesPage.examples category) as [|example rest IH];
    [reflexivity|].
  cbn [flat_map]. rewrite !app_nil_r in IH |- *.
  change (elements "Heading" (fst (ExamplesPage.ExampleCard example s)))
    with (@nil Node).
  exact IH.
Qed.

(** X10. Whatever [ExampleCategories] holds, the headings of the Examples
    page are, in document order: the title ['Examples'] (h1), one h2 per
    category with the category's title, in the order of the array, and
    then ['Running Examples'] (h2) and ['Quick Start'] (h3), which close
    the page even when there is no category. *)
Theorem X10_page_outline :
  forall (s : ExamplesPage.Store),
    elements "Heading" (fst (ExamplesPage.Examples s))
    = ([Elem "Heading" [("as", AStr "h1"); className "hero__title"] [Text "Examples"]]
       ++ map (fun category =>
                 Elem "Heading" [("as", AStr "h2")]
                      [Text (ExamplesPage.category_title category)])
              (ExamplesPage.st_ExampleCategories s)
       ++ [Elem "Heading" [("as", AStr "h2")] [Text "Running Examples"];
           Elem "Heading" [("as", AStr "h3")] [Text "Quick Start"]])%list.
Proof.
  intros s. rewrite ExamplesOutput.Examples_output.
  cbn [elements flat_map String.eqb Ascii.eqb Bool.eqb app].
  change (elements "Heading" (fst (ExamplesPage.ExamplesHeader s)))
    with [Elem "Heading" [("as", AStr "h1"); className "hero__title"] [Text "Examples"]].
  rewrite flat_map_app.
  change (flat_map (elements "Heading") [ExamplesPage.RunningExamples])
    with [Elem "Heading" [("as", AStr "h2")] [Text "Running Examples"];
          Elem "Heading" [("as", AStr "h3")] [Text "Quick Start"]].
  rewrite !app_nil_r. cbn [app]. f_equal. f_equal.
  unfold JS.array_map.
  rewrite (elements_below_comps "Heading" "ExampleCategory"
             (fun category => fst (ExamplesPage.ExampleCategory category s))).
  induction (ExamplesPage.st_ExampleCategories s) as [|category rest IH];
    [reflexivity|].
  cbn [flat_map map]. rewrite IH, category_headings. reflexivity.
Qed.
